(** * garden_advice: normalisation, input resolution and advice rendering

    A shallow embedding of [garden_advice.py].

    Data model.  A Python [str] is a Rocq [string]; each character is one
    code point below 256 (CPython's one-byte string kind), and on these
    code points [str.isspace] and [str.lower] are written out as CPython
    has them.  A [dict] with string keys is a [gmap string _], [dict.get]
    is the lookup [!!], an [Optional[str]] is an [option string], and the
    tuple returned by [parse_inputs] is a product. *)

From Stdlib Require Import Ascii String NArith List.
From stdpp Require Import gmap strings list fin_maps.

Local Open Scope string_scope.

(** ** Builtins of [str] used by the program *)

Module PyStr.

(** [str.isspace] on one code point: TAB, LF, VT, FF, CR, the separators
    FS, GS, RS, US, SPACE, NEL (0x85) and NBSP (0xA0). *)
Definition isspace (c : ascii) : bool :=
  let n := N_of_ascii c in
  ((9 <=? n) && (n <=? 13) || (28 <=? n) && (n <=? 32)
   || (n =? 133) || (n =? 160))%N.

(** [str.lower] on one code point: A-Z and the capital letters of the
    Latin-1 supplement (0xC0-0xDE without the multiplication sign 0xD7)
    move up by 32; every other code point is unchanged. *)
Definition lower_char (c : ascii) : ascii :=
  let n := N_of_ascii c in
  if ((65 <=? n) && (n <=? 90)
      || (192 <=? n) && (n <=? 222) && negb (n =? 215))%N
  then ascii_of_N (n + 32) else c.

Definition lower_chars (l : list ascii) : list ascii := map lower_char l.

(** Leading whitespace removed. *)
Fixpoint lstrip_chars (l : list ascii) : list ascii :=
  match l with
  | [] => []
  | c :: l' => if isspace c then lstrip_chars l' else l
  end.

(** [str.strip()]: whitespace removed at both ends. *)
Definition strip_chars (l : list ascii) : list ascii :=
  rev (lstrip_chars (rev (lstrip_chars l))).

(** [str.split()] without a separator: the maximal runs of characters
    that are not whitespace, in order.  [cur] holds the run being read,
    last character first. *)
Fixpoint split_go (cur : list ascii) (l : list ascii) : list (list ascii) :=
  match l with
  | [] => match cur with [] => [] | _ :: _ => [rev cur] end
  | c :: l' =>
      if isspace c then
        match cur with
        | [] => split_go [] l'
        | _ :: _ => rev cur :: split_go [] l'
        end
      else split_go (c :: cur) l'
  end.

Definition split_chars (l : list ascii) : list (list ascii) := split_go [] l.

(** [sep.join(items)]. *)
Fixpoint join_chars (sep : list ascii) (items : list (list ascii)) : list ascii :=
  match items with
  | [] => []
  | [w] => w
  | w :: ws => w ++ sep ++ join_chars sep ws
  end.

Definition of_str : string → list ascii := list_ascii_of_string.
Definition to_str : list ascii → string := string_of_list_ascii.

Definition strip (s : string) : string := to_str (strip_chars (of_str s)).
Definition lower (s : string) : string := to_str (lower_chars (of_str s)).
Definition split (s : string) : list string :=
  map to_str (split_chars (of_str s)).
Definition join (sep : string) (items : list string) : string :=
  to_str (join_chars (of_str sep) (map of_str items)).

(** [s.split(sep)] for a one-character separator: the pieces between
    the occurrences of [sep], empty pieces kept. *)
Fixpoint split_on_go (sep : ascii) (cur : list ascii) (l : list ascii)
  : list (list ascii) :=
  match l with
  | [] => [rev cur]
  | c :: l' =>
      if Ascii.eqb c sep then rev cur :: split_on_go sep [] l'
      else split_on_go sep (c :: cur) l'
  end.

Definition split_on (sep : ascii) (s : string) : list string :=
  map to_str (split_on_go sep [] (of_str s)).

(** [needle in s]. *)
Definition contains (needle s : string) : Prop :=
  ∃ pre post, s = pre +:+ needle +:+ post.

End PyStr.

(** ** The static tables *)

(** The line feed, the separator of the rendered lines. *)
Definition LF : string := String "010"%char "".

Definition SEASON_ALIASES : gmap string string :=
  list_to_map [
    ("spring", "spring");
    ("summer", "summer");
    ("autumn", "autumn");
    ("fall", "autumn");
    ("winter", "winter")
  ].

Definition PLANT_ALIASES : gmap string string :=
  list_to_map [
    ("flower", "flower");
    ("flowers", "flower");
    ("vegetable", "vegetable");
    ("veg", "vegetable");
    ("vegetables", "vegetable")
  ].

(** [ADVICE[season][plant_type]] is the list of lines to print.  The
    right single quotation mark in the winter tip for flowers lies
    outside the one-byte range and is held as its three UTF-8 bytes; no
    function of the program inspects the text of a tip. *)
Definition ADVICE : gmap string (gmap string (list string)) :=
  list_to_map [
    ("spring", list_to_map [
      ("flower", [
        "Deadhead early blooms and add a balanced fertiliser.";
        "Divide overcrowded perennials."
      ]);
      ("vegetable", [
        "Start cool-season crops and harden off seedlings.";
        "Prepare beds with compost."
      ])
    ]);
    ("summer", list_to_map [
      ("flower", [
        "Water in the morning and mulch to retain moisture.";
        "Pinch leggy annuals to encourage new blooms."
      ]);
      ("vegetable", [
        "Water consistently and watch for pests (aphids, beetles).";
        "Harvest frequently to keep plants productive."
      ])
    ]);
    ("autumn", list_to_map [
      ("flower", [
        "Plant spring-flowering bulbs.";
        "Cut back spent annuals and tidy beds."
      ]);
      ("vegetable", [
        "Sow/plant cool-season crops; protect from early frosts.";
        "Add leaf mulch to improve soil."
      ])
    ]);
    ("winter", list_to_map [
      ("flower", [
        "Protect tender perennials with covers in frost-prone areas.";
        "Plan next year’s colour scheme."
      ]);
      ("vegetable", [
        "Clean and oil tools; plan crop rotation.";
        "Start seeds indoors where appropriate."
      ])
    ])
  ].

Definition RECOMMENDATIONS : gmap string (list string) :=
  list_to_map [
    ("spring", ["Snapdragon"; "Lettuce"; "Radish"]);
    ("summer", ["Zinnia"; "Tomato"; "Basil"]);
    ("autumn", ["Crocus (bulbs)"; "Kale"; "Spinach"]);
    ("winter", ["Hellebore (mild climates)"; "Microgreens";
                "Garlic (in mild regions)"])
  ].

(** ** The functions *)

(** Lowercase, trim whitespace, collapse internal spaces. *)
Definition normalize (text : string) : string :=
  PyStr.join " " (PyStr.split (PyStr.lower (PyStr.strip text))).

Definition season_error (raw_season : string) : string :=
  "Unknown season: '" +:+ raw_season
    +:+ "'. Try spring/summer/autumn(winter) or 'fall'.".

Definition plant_error (raw_plant : string) : string :=
  "Unknown plant type: '" +:+ raw_plant
    +:+ "'. Try 'flower' or 'vegetable'.".

(** Returns [(season_key, plant_key, errors)].  The two [if] blocks of
    the source run one after the other on the same [errors] list. *)
Definition parse_inputs (raw_season raw_plant : option string)
  : option string * option string * list string :=
  let errors : list string := [] in
  let season_key : option string := None in
  let plant_key : option string := None in
  let '(season_key, errors) :=
    match raw_season with
    | Some raw_season =>
        let s := normalize raw_season in
        let season_key := SEASON_ALIASES !! s in
        match season_key with
        | None => (season_key, (errors ++ [season_error raw_season])%list)
        | Some _ => (season_key, errors)
        end
    | None => (season_key, errors)
    end in
  let '(plant_key, errors) :=
    match raw_plant with
    | Some raw_plant =>
        let p := normalize raw_plant in
        let plant_key := PLANT_ALIASES !! p in
        match plant_key with
        | None => (plant_key, (errors ++ [plant_error raw_plant])%list)
        | Some _ => (plant_key, errors)
        end
    | None => (plant_key, errors)
    end in
  (season_key, plant_key, errors).

Definition FALLBACK : string := "No specific tips for this combination yet.".

(** [get_advice] over explicit tables. *)
Definition get_advice_in
    (advice : gmap string (gmap string (list string)))
    (recommendations : gmap string (list string))
    (season_key plant_key : string) : string :=
  let season_bucket := default ∅ (advice !! season_key) in
  let plant_lines := default [] (season_bucket !! plant_key) in
  let lines :=
    match plant_lines with
    | [] => [FALLBACK]
    | _ :: _ => plant_lines
    end in
  let recs := default [] (recommendations !! season_key) in
  let lines :=
    match recs with
    | [] => lines
    | _ :: _ =>
        (lines ++ [""]
           ++ ["Suggested " +:+ plant_key +:+ "s for " +:+ season_key +:+ ": "
               +:+ PyStr.join ", " recs])%list
    end in
  PyStr.join LF lines.

Definition get_advice (season_key plant_key : string) : string :=
  get_advice_in ADVICE RECOMMENDATIONS season_key plant_key.

(** ** The normaliser as the specification words it *)






(** ** Shapes of text used in the statements *)

(** A word: not empty, no whitespace in it. *)
Definition nonspace (l : list ascii) : Prop :=
  Forall (λ c, PyStr.isspace c = false) l.
Definition word (w : list ascii) : Prop := w ≠ []%list ∧ nonspace w.

(** No whitespace at the back / at the front. *)
Definition tight_back (l : list ascii) : Prop :=
  ∀ l0 c, l = (l0 ++ [c])%list → PyStr.isspace c = false.
Definition tight_front (l : list ascii) : Prop :=
  ∀ c l0, l = c :: l0 → PyStr.isspace c = false.

(** [normalize] on lists of characters. *)
Definition normalize_chars (l : list ascii) : list ascii :=
  PyStr.join_chars [" "%char]
    (PyStr.split_chars (PyStr.lower_chars (PyStr.strip_chars l))).

(** The three components of the tuple [parse_inputs] returns. *)
Definition season_of (r : option string * option string * list string)
  : option string := r.1.1.
Definition plant_of (r : option string * option string * list string)
  : option string := r.1.2.
Definition errors_of (r : option string * option string * list string)
  : list string := r.2.

(** Text made of whitespace only; the empty text is blank. *)
Definition blank (l : list ascii) : Prop :=
  Forall (λ c, PyStr.isspace c = true) l.

(** ** The interactive driver *)

(** What a run can see of the outside: the lines still to be read from
    standard input, without their line feeds, and the text written to
    standard output so far. *)
Record world : Type := World { stdin : list string; stdout : string }.

Inductive exn : Type := EOFError.

(** A step either returns a value or raises, and leaves a world. *)
Inductive outcome (A : Type) : Type :=
  | Returned (a : A) (w : world)
  | Raised (e : exn) (w : world).
Arguments Returned {A} a w.
Arguments Raised {A} e w.

Definition IO (A : Type) : Type := world → outcome A.

#[global] Instance IO_ret : MRet IO := λ A a w, Returned a w.
#[global] Instance IO_bind : MBind IO := λ A B f m w,
  match m w with
  | Returned a w' => f a w'
  | Raised e w' => Raised e w'
  end.

(** [input(prompt)]: the prompt is written without a line feed, then
    the next line is read; with no line left, [EOFError]. *)
Definition input (prompt : string) : IO string := λ w,
  let w' := World (stdin w) (stdout w +:+ prompt) in
  match stdin w' with
  | [] => Raised EOFError w'
  | line :: rest => Returned line (World rest (stdout w'))
  end.

(** [print(text)]: the text and a line feed are written. *)
Definition print (text : string) : IO unit := λ w,
  Returned () (World (stdin w) (stdout w +:+ text +:+ LF)).

(** Wrapper over [input()]. *)
Definition ask_user (prompt : string) : IO string := input prompt.

(** How an f-string renders a value that is a [str] or [None]. *)
Definition format_key (key : option string) : string :=
  match key with Some k => k | None => "None" end.

(** [get_advice] as [main] calls it, on the values [parse_inputs]
    returned, each a [str] or [None]; [None] is a key of no table. *)
Definition get_advice_keys (season_key plant_key : option string) : string :=
  let season_bucket := default ∅ (season_key ≫= λ k, ADVICE !! k) in
  let plant_lines := default [] (plant_key ≫= λ k, season_bucket !! k) in
  let lines :=
    match plant_lines with
    | [] => [FALLBACK]
    | _ :: _ => plant_lines
    end in
  let recs := default [] (season_key ≫= λ k, RECOMMENDATIONS !! k) in
  let lines :=
    match recs with
    | [] => lines
    | _ :: _ =>
        (lines ++ [""]
           ++ ["Suggested " +:+ format_key plant_key +:+ "s for "
               +:+ format_key season_key +:+ ": "
               +:+ PyStr.join ", " recs])%list
    end in
  PyStr.join LF lines.

Definition SEASON_PROMPT : string :=
  "Pick a season (spring, summer, autumn/fall, winter): ".
Definition PLANT_PROMPT : string :=
  "Pick a plant type (flower or vegetable): ".

(** Interactive entrypoint. *)
Definition main : IO unit :=
  season_input ← ask_user SEASON_PROMPT;
  plant_input ← ask_user PLANT_PROMPT;
  let '(season_key, plant_key, errors) :=
    parse_inputs (Some season_input) (Some plant_input) in
  match errors with
  | _ :: _ => print (PyStr.join LF errors)
  | [] =>
      let text := get_advice_keys season_key plant_key in
      print (LF +:+ text)
  end.

(** ** Facts about the builtins *)

Module PyStrFacts.
Import PyStr.
Local Open Scope list_scope.

(** Characters are eight bits: a statement about one character is
    settled by running through all of them. *)
Ltac all_chars c :=
  destruct c as [[] [] [] [] [] [] [] []]; vm_compute; try reflexivity;
  try discriminate.

Lemma isspace_lower_char c : isspace (lower_char c) = isspace c.
Proof. all_chars c. Qed.




Lemma tight_back_rev l : tight_front l → tight_back (rev l).
Proof.
  intros H l0 c E. apply (f_equal (@rev ascii)) in E.
  rewrite rev_involutive, rev_app_distr in E. simpl in E. eauto.
Qed.

Lemma tight_front_rev l : tight_back l → tight_front (rev l).
Proof.
  intros H c l0 E. apply (f_equal (@rev ascii)) in E.
  rewrite rev_involutive in E. simpl in E. eauto.
Qed.

(** *** [lstrip_chars] and [strip_chars] *)

Lemma lstrip_tight_front l : tight_front (lstrip_chars l).
Proof.
  induction l as [|c l IH]; simpl.
  - intros ? ? [=].
  - destruct (isspace c) eqn:E; [exact IH|].
    intros ? ? [= <- <-]. exact E.
Qed.


Lemma lstrip_suffix l : ∃ pre, l = pre ++ lstrip_chars l.
Proof.
  induction l as [|c l [pre IH]]; simpl.
  - exists []. reflexivity.
  - destruct (isspace c).
    + exists (c :: pre). simpl. congruence.
    + exists []. reflexivity.
Qed.

Lemma tight_back_suffix pre l : tight_back (pre ++ l) → tight_back l.
Proof.
  intros H l0 c ->. apply (H (pre ++ l0) c). rewrite app_assoc. reflexivity.
Qed.

Lemma lstrip_tight_back l : tight_back l → tight_back (lstrip_chars l).
Proof.
  destruct (lstrip_suffix l) as [pre E]. intros H. rewrite E in H.
  exact (tight_back_suffix _ _ H).
Qed.

Lemma strip_tight_front l : tight_front (strip_chars l).
Proof.
  unfold strip_chars. apply tight_front_rev, lstrip_tight_back.
  apply tight_back_rev, lstrip_tight_front.
Qed.





(** *** [split_go] and [join_chars] *)

Lemma join_cons sep w ws :
  join_chars sep (w :: ws)
  = match ws with [] => w | _ :: _ => w ++ sep ++ join_chars sep ws end.
Proof. destruct ws; reflexivity. Qed.

Lemma split_go_words l : ∀ cur, nonspace cur → Forall word (split_go cur l).
Proof.
  induction l as [|c l IH]; intros cur Hcur; simpl.
  - destruct cur as [|d cur]; constructor; [|constructor].
    split; [|apply Forall_rev; exact Hcur].
    simpl. intros E. destruct (rev cur); discriminate.
  - destruct (isspace c) eqn:E.
    + destruct cur as [|d cur]; [apply IH; constructor|].
      constructor; [|apply IH; constructor].
      split; [|apply Forall_rev; exact Hcur].
      simpl. intros E'. destruct (rev cur); discriminate.
    + apply IH. constructor; assumption.
Qed.

Lemma split_chars_words l : Forall word (split_chars l).
Proof. apply split_go_words. constructor. Qed.






Lemma tight_back_prefix pre l : l ≠ [] → tight_back l → tight_back (pre ++ l).
Proof.
  intros Hne H l0 c E.
  destruct (exists_last Hne) as (l1 & d & ->).
  rewrite app_assoc in E. apply app_inj_tail in E as [_ ->].
  apply (H l1 c). reflexivity.
Qed.

Lemma nonspace_tight_back w : nonspace w → tight_back w.
Proof.
  intros Hw l0 c ->. apply Forall_app in Hw as [_ Hc].
  inversion Hc; assumption.
Qed.

Lemma join_words_nonempty sep w ws : w ≠ [] → join_chars sep (w :: ws) ≠ [].
Proof.
  intros Hne. rewrite join_cons. destruct ws; [exact Hne|].
  destruct w; [contradiction|discriminate].
Qed.

Lemma join_tight_front sep ws : Forall word ws → tight_front (join_chars sep ws).
Proof.
  intros Hws. destruct Hws as [|w ws [Hne Hw] Hws]; [intros ? ? [=]|].
  rewrite join_cons. destruct w as [|d w]; [contradiction|].
  inversion Hw; subst.
  destruct ws; intros c l0 [= <- <-]; assumption.
Qed.

Lemma join_tight_back sep ws : Forall word ws → tight_back (join_chars sep ws).
Proof.
  induction 1 as [|w ws [Hne Hw] Hws IH]; [intros [|??] ? [=]|].
  rewrite join_cons. destruct ws as [|w' ws].
  - apply nonspace_tight_back, Hw.
  - rewrite app_assoc. apply tight_back_prefix; [|exact IH].
    inversion Hws as [|? ? [Hne' _] _]; subst.
    apply join_words_nonempty, Hne'.
Qed.




(** *** The normaliser on characters *)


(** *** From characters to strings *)

Lemma of_to_str l : of_str (to_str l) = l.
Proof. apply list_ascii_of_string_of_list_ascii. Qed.

Lemma to_of_str s : to_str (of_str s) = s.
Proof. apply string_of_list_ascii_of_string. Qed.

Lemma map_of_to_str ws : map of_str (map to_str ws) = ws.
Proof.
  rewrite map_map. rewrite <- (map_id ws) at 2.
  apply map_ext; intros w; apply of_to_str.
Qed.

End PyStrFacts.

(** [normalize] is the character-level normaliser under the conversion
    between strings and lists of characters. *)
Lemma normalize_chars_eq text :
  normalize text
  = PyStr.to_str (normalize_chars (PyStr.of_str text)).
Proof.
  unfold normalize, PyStr.join, PyStr.split, PyStr.lower, PyStr.strip.
  rewrite PyStrFacts.map_of_to_str, !PyStrFacts.of_to_str. reflexivity.
Qed.

(** ** The code against the specification's normaliser *)

Module SpecFacts.
Import PyStr PyStrFacts.
Local Open Scope list_scope.









End SpecFacts.

(** ** The normaliser *)

Example normalize_mixed :
  normalize ("  VeG " +:+ String "009"%char "  Patch" +:+ LF) = "veg patch".
Proof. vm_compute. reflexivity. Qed.

Example normalize_blank : normalize "   " = "".
Proof. vm_compute. reflexivity. Qed.

Example parse_inputs_aliases :
  parse_inputs (Some " FALL ") (Some "Veg")
  = (Some "autumn", Some "vegetable", []).
Proof. vm_compute. reflexivity. Qed.



(** ** The input resolver *)

(** Each field is handled on its own: the key of a field does not depend
    on the other field, and the errors are those of the season followed by
    those of the plant. *)
Lemma parse_inputs_independent (raw_season raw_plant : option string) :
  season_of (parse_inputs raw_season raw_plant)
  = season_of (parse_inputs raw_season None)
  ∧ plant_of (parse_inputs raw_season raw_plant)
    = plant_of (parse_inputs None raw_plant)
  ∧ errors_of (parse_inputs raw_season raw_plant)
    = (errors_of (parse_inputs raw_season None)
       ++ errors_of (parse_inputs None raw_plant))%list.
Proof.
  unfold parse_inputs, season_of, plant_of, errors_of.
  destruct raw_season as [rs|], raw_plant as [rp|]; cbn beta iota zeta;
    try destruct (SEASON_ALIASES !! normalize rs);
    try destruct (PLANT_ALIASES !! normalize rp); auto.
Qed.

(** C5. The raw season texts "Fall", "FALL" and " fall " all resolve to
    the canonical season key "autumn", whatever the plant text is. *)
Theorem parse_inputs_fall (raw_plant : option string) :
  season_of (parse_inputs (Some "Fall") raw_plant) = Some "autumn"
  ∧ season_of (parse_inputs (Some "FALL") raw_plant) = Some "autumn"
  ∧ season_of (parse_inputs (Some " fall ") raw_plant) = Some "autumn".
Proof.
  repeat split;
    match goal with
    | |- season_of (parse_inputs ?rs _) = _ =>
        destruct (parse_inputs_independent rs raw_plant) as (-> & _)
    end; vm_compute; reflexivity.
Qed.

Lemma contains_season_error raw : PyStr.contains raw (season_error raw).
Proof.
  exists "Unknown season: '",
         "'. Try spring/summer/autumn(winter) or 'fall'.".
  reflexivity.
Qed.

Lemma contains_plant_error raw : PyStr.contains raw (plant_error raw).
Proof.
  exists "Unknown plant type: '", "'. Try 'flower' or 'vegetable'.".
  reflexivity.
Qed.

(** C6. When the normalised season text is not a key of the season alias
    table, [parse_inputs] returns no season key and exactly one error for
    the season, which holds the raw text verbatim: the errors are that one
    message followed by whatever the plant field alone produces, and the
    message alone when the plant is absent. *)
Theorem parse_inputs_unknown_season (raw_season : string)
    (raw_plant : option string) :
  SEASON_ALIASES !! normalize raw_season = None →
  season_of (parse_inputs (Some raw_season) raw_plant) = None
  ∧ errors_of (parse_inputs (Some raw_season) raw_plant)
    = season_error raw_season :: errors_of (parse_inputs None raw_plant)
  ∧ parse_inputs (Some raw_season) None
    = (None, None, [season_error raw_season])
  ∧ PyStr.contains raw_season (season_error raw_season).
Proof.
  intros Hs. split; [|split; [|split]].
  - unfold parse_inputs, season_of. cbn beta iota zeta. rewrite Hs.
    destruct raw_plant as [rp|]; [|reflexivity].
    destruct (PLANT_ALIASES !! normalize rp); reflexivity.
  - unfold parse_inputs, errors_of. cbn beta iota zeta. rewrite Hs.
    destruct raw_plant as [rp|]; [|reflexivity].
    destruct (PLANT_ALIASES !! normalize rp); reflexivity.
  - unfold parse_inputs. cbn beta iota zeta. rewrite Hs. reflexivity.
  - apply contains_season_error.
Qed.

Lemma parse_inputs_unknown_season_witness :
  SEASON_ALIASES !! normalize "monsoon" = None
  ∧ season_of (parse_inputs (Some "monsoon") None) = None
  ∧ errors_of (parse_inputs (Some "monsoon") None)
    = ["Unknown season: 'monsoon'. Try spring/summer/autumn(winter) or 'fall'."].
Proof.
  split; [vm_compute; reflexivity|].
  destruct (parse_inputs_unknown_season "monsoon" None) as (Hk & He & _).
  - vm_compute; reflexivity.
  - split; [exact Hk|exact He].
Defined.

(** C7. When neither the season text nor the plant text resolves,
    [parse_inputs] returns exactly two errors, one per field, the
    season's before the plant's.  The two fields are validated
    independently and without short-circuit: for any two arguments the
    key of a field is what that field gives alone, and the errors are
    those of the season alone followed by those of the plant alone. *)
Theorem parse_inputs_both_unknown (raw_season raw_plant : string) :
  SEASON_ALIASES !! normalize raw_season = None →
  PLANT_ALIASES !! normalize raw_plant = None →
  parse_inputs (Some raw_season) (Some raw_plant)
  = (None, None, [season_error raw_season; plant_error raw_plant])
  ∧ errors_of (parse_inputs (Some raw_season) None)
    = [season_error raw_season]
  ∧ errors_of (parse_inputs None (Some raw_plant))
    = [plant_error raw_plant]
  ∧ ∀ rs rp,
      season_of (parse_inputs rs rp) = season_of (parse_inputs rs None)
      ∧ plant_of (parse_inputs rs rp) = plant_of (parse_inputs None rp)
      ∧ errors_of (parse_inputs rs rp)
        = (errors_of (parse_inputs rs None)
           ++ errors_of (parse_inputs None rp))%list.
Proof.
  intros Hs Hp. split; [|split; [|split]].
  - unfold parse_inputs. cbn beta iota zeta. rewrite Hs, Hp. reflexivity.
  - unfold parse_inputs, errors_of. cbn beta iota zeta. rewrite Hs.
    reflexivity.
  - unfold parse_inputs, errors_of. cbn beta iota zeta. rewrite Hp.
    reflexivity.
  - intros rs rp. apply parse_inputs_independent.
Qed.

Lemma parse_inputs_both_unknown_witness :
  SEASON_ALIASES !! normalize "monsoon" = None
  ∧ PLANT_ALIASES !! normalize "Tree" = None
  ∧ parse_inputs (Some "monsoon") (Some "Tree")
    = (None, None,
       ["Unknown season: 'monsoon'. Try spring/summer/autumn(winter) or 'fall'.";
        "Unknown plant type: 'Tree'. Try 'flower' or 'vegetable'."]).
Proof.
  split; [vm_compute; reflexivity|]. split; [vm_compute; reflexivity|].
  destruct (parse_inputs_both_unknown "monsoon" "Tree") as (H & _).
  - vm_compute; reflexivity.
  - vm_compute; reflexivity.
  - exact H.
Defined.

(** C8. An absent field is skipped: with no season text there is no
    season key and the errors are those of the plant alone (one message
    when the plant text is unknown, none otherwise); likewise for an
    absent plant text; and with both absent the result is
    [(None, None, [])]. *)
Theorem parse_inputs_absent :
  (∀ raw_plant,
     season_of (parse_inputs None raw_plant) = None
     ∧ errors_of (parse_inputs None raw_plant)
       = match raw_plant with
         | Some r =>
             match PLANT_ALIASES !! normalize r with
             | Some _ => []
             | None => [plant_error r]
             end
         | None => []
         end)
  ∧ (∀ raw_season,
       plant_of (parse_inputs raw_season None) = None
       ∧ errors_of (parse_inputs raw_season None)
         = match raw_season with
           | Some r =>
               match SEASON_ALIASES !! normalize r with
               | Some _ => []
               | None => [season_error r]
               end
           | None => []
           end)
  ∧ parse_inputs None None = (None, None, []).
Proof.
  unfold parse_inputs, season_of, plant_of, errors_of.
  split; [|split; [|reflexivity]].
  - intros [r|]; cbn beta iota zeta; [|split; reflexivity].
    destruct (PLANT_ALIASES !! normalize r); split; reflexivity.
  - intros [r|]; cbn beta iota zeta; [|split; reflexivity].
    destruct (SEASON_ALIASES !! normalize r); split; reflexivity.
Qed.

(** ** The tables *)

(** C9. The season keys of the Advice table and of the Recommendation
    table are exactly the values of the season alias table, and the plant
    keys of every season bucket of the Advice table are exactly the values
    of the plant alias table. *)
Theorem table_keys_canonical :
  dom ADVICE = (map_img SEASON_ALIASES : gset string)
  ∧ dom RECOMMENDATIONS = (map_img SEASON_ALIASES : gset string)
  ∧ map_Forall
      (λ _ bucket, dom bucket = (map_img PLANT_ALIASES : gset string))
      ADVICE.
Proof.
  split; [|split]; compute_done.
Qed.

(** ** The advice renderer *)

Lemma to_str_app l1 l2 :
  PyStr.to_str (l1 ++ l2)%list = PyStr.to_str l1 +:+ PyStr.to_str l2.
Proof. induction l1 as [|c l1 IH]; simpl; [reflexivity|]. rewrite IH. reflexivity. Qed.

Lemma join_one sep a : PyStr.join sep [a] = a.
Proof. unfold PyStr.join. simpl. apply PyStrFacts.to_of_str. Qed.

Lemma join_three sep a b c :
  PyStr.join sep [a; b; c] = a +:+ sep +:+ b +:+ sep +:+ c.
Proof.
  unfold PyStr.join. simpl.
  rewrite !to_str_app, !PyStrFacts.to_of_str. reflexivity.
Qed.

(** The renderer over any tables, for a pair without tips: a missing
    bucket, a missing plant entry and an empty tip list all give the
    fallback line, and the footer follows when the season has a list of
    recommendations that is not empty. *)
Lemma get_advice_in_fallback advice recommendations season_key plant_key :
  default [] (default ∅ (advice !! season_key) !! plant_key) = [] →
  get_advice_in advice recommendations season_key plant_key
  = match default [] (recommendations !! season_key) with
    | [] => FALLBACK
    | recs =>
        FALLBACK +:+ LF +:+ "" +:+ LF
          +:+ "Suggested " +:+ plant_key +:+ "s for " +:+ season_key +:+ ": "
          +:+ PyStr.join ", " recs
    end.
Proof.
  intros H. unfold get_advice_in. rewrite H.
  destruct (default [] (recommendations !! season_key)) as [|r recs].
  - apply join_one.
  - cbn [app]. apply join_three.
Qed.

Lemma RECOMMENDATIONS_nonempty :
  map_Forall (λ _ (recs : list string), recs ≠ []) RECOMMENDATIONS.
Proof.
  apply map_Forall_to_list. vm_compute. repeat constructor; discriminate.
Qed.

(** C1. For a season key and a plant key whose pair has no tip list in
    the Advice table, [get_advice] returns the fallback line, then an empty
    line, then the footer listing the season's recommended plants; when the
    season has no entry in the Recommendation table the result is the
    fallback line alone. *)
Theorem get_advice_no_tips (season_key plant_key : string) :
  ADVICE !! season_key ≫= (λ bucket, bucket !! plant_key) = None →
  get_advice season_key plant_key
  = match RECOMMENDATIONS !! season_key with
    | Some recs =>
        FALLBACK +:+ LF +:+ "" +:+ LF
          +:+ "Suggested " +:+ plant_key +:+ "s for " +:+ season_key +:+ ": "
          +:+ PyStr.join ", " recs
    | None => FALLBACK
    end.
Proof.
  intros H. unfold get_advice. rewrite get_advice_in_fallback.
  - destruct (RECOMMENDATIONS !! season_key) as [recs|] eqn:E; [|reflexivity].
    apply RECOMMENDATIONS_nonempty in E. simpl.
    destruct recs; [contradiction|reflexivity].
  - destruct (ADVICE !! season_key) as [bucket|]; simpl in *.
    + rewrite H. reflexivity.
    + rewrite lookup_empty. reflexivity.
Qed.

Lemma get_advice_no_tips_witness :
  ADVICE !! "summer" ≫= (λ bucket, bucket !! "herb") = None
  ∧ get_advice "summer" "herb"
    = FALLBACK +:+ LF +:+ LF
        +:+ "Suggested herbs for summer: Zinnia, Tomato, Basil".
Proof.
  split; [vm_compute; reflexivity|].
  rewrite (get_advice_no_tips "summer" "herb"); vm_compute; reflexivity.
Defined.

(** C2. The advice for summer vegetables contains "Water consistently",
    and its last line, the text after the last line feed, contains
    "Tomato". *)
Theorem get_advice_summer_vegetable :
  PyStr.contains "Water consistently" (get_advice "summer" "vegetable")
  ∧ ∃ line,
      last (PyStr.split_on "010"%char (get_advice "summer" "vegetable"))
      = Some line
      ∧ PyStr.contains "Tomato" line.
Proof.
  split.
  - exists "",
      (" and watch for pests (aphids, beetles)." +:+ LF
       +:+ "Harvest frequently to keep plants productive." +:+ LF +:+ LF
       +:+ "Suggested vegetables for summer: Zinnia, Tomato, Basil").
    vm_compute. reflexivity.
  - exists "Suggested vegetables for summer: Zinnia, Tomato, Basil". split.
    + vm_compute. reflexivity.
    + exists "Suggested vegetables for summer: Zinnia, ", ", Basil".
      reflexivity.
Qed.

(** C10. [get_advice] returns a result for any two strings; for a season
    key that neither the Advice table nor the Recommendation table holds,
    and any plant key, the result is the fallback line alone, with no
    footer. *)
Theorem get_advice_unknown_season (season_key plant_key : string) :
  ADVICE !! season_key = None →
  RECOMMENDATIONS !! season_key = None →
  get_advice season_key plant_key = FALLBACK.
Proof.
  intros Ha Hr. unfold get_advice. rewrite get_advice_in_fallback.
  - rewrite Hr. reflexivity.
  - rewrite Ha. simpl. rewrite lookup_empty. reflexivity.
Qed.

Lemma get_advice_unknown_season_witness :
  ADVICE !! "monsoon" = None
  ∧ RECOMMENDATIONS !! "monsoon" = None
  ∧ get_advice "monsoon" "vegetable"
    = "No specific tips for this combination yet.".
Proof.
  split; [vm_compute; reflexivity|]. split; [vm_compute; reflexivity|].
  apply (get_advice_unknown_season "monsoon" "vegetable");
    vm_compute; reflexivity.
Defined.

(** ** More on the normaliser *)

Module NormalizeFacts.
Import PyStr PyStrFacts.
Local Open Scope list_scope.



Lemma of_str_inj s1 s2 : of_str s1 = of_str s2 → s1 = s2.
Proof. intros E. rewrite <- (to_of_str s1), <- (to_of_str s2), E. reflexivity. Qed.

Lemma nonspace_not_space w c : nonspace w → In c w → isspace c = true → False.
Proof.
  intros Hw Hin Hc. unfold nonspace in Hw. rewrite Forall_forall in Hw.
  rewrite (Hw c) in Hc; [discriminate|]. apply list_elem_of_In, Hin.
Qed.

(** In a space-joined list of words the only whitespace is the joining
    space. *)
Lemma join_space_only ws c :
  Forall word ws → In c (join_chars [" "%char] ws) → isspace c = true →
  c = " "%char.
Proof.
  induction 1 as [|w ws [_ Hw] Hws IH]; [intros []|].
  rewrite join_cons. destruct ws as [|w' ws].
  - intros Hin Hc. destruct (nonspace_not_space w c Hw Hin Hc).
  - intros Hin Hc. apply in_app_or in Hin as [Hin|Hin].
    + destruct (nonspace_not_space w c Hw Hin Hc).
    + destruct Hin as [<-|Hin]; [reflexivity|]. apply IH; assumption.
Qed.

(** A whitespace character met after a run without whitespace lies
    behind the run. *)
Lemma pair_past_run w : ∀ tail pre c d post,
  nonspace w → w ++ tail = pre ++ c :: d :: post → isspace c = true →
  ∃ pre', tail = pre' ++ c :: d :: post.
Proof.
  induction w as [|x w IH]; intros tail pre c d post Hw E Hc.
  - exists pre. exact E.
  - inversion Hw as [|? ? Hx Hw']; subst. destruct pre as [|y pre].
    + injection E as -> _. rewrite Hx in Hc. discriminate.
    + injection E as _ E. exact (IH _ _ _ _ _ Hw' E Hc).
Qed.

(** No two whitespace characters stand side by side. *)
Lemma join_no_pair ws : Forall word ws → ∀ pre c d post,
  join_chars [" "%char] ws = pre ++ c :: d :: post →
  isspace c = true → isspace d = false.
Proof.
  induction 1 as [|w ws [Hne Hw] Hws IH]; intros pre c d post E Hc.
  - destruct pre; discriminate.
  - rewrite join_cons in E. destruct ws as [|w' ws].
    + exfalso. apply (nonspace_not_space w c Hw); [|exact Hc].
      rewrite E. apply in_or_app. right. left. reflexivity.
    + destruct (pair_past_run w _ _ _ _ _ Hw E Hc) as [pre' E'].
      destruct pre' as [|y pre'].
      * injection E' as _ E'.
        apply (join_tight_front [" "%char] (w' :: ws) Hws d post).
        exact E'.
      * injection E' as _ E'. exact (IH _ _ _ _ E' Hc).
Qed.





End NormalizeFacts.

(** X1. The result of [normalize] has no whitespace at its front or at
    its back, the only whitespace character in it is the space, and no two
    spaces stand side by side. *)
Theorem normalize_shape (text : string) :
  let r := PyStr.of_str (normalize text) in
  tight_front r ∧ tight_back r
  ∧ (∀ c, In c r → PyStr.isspace c = true → c = " "%char)
  ∧ (∀ pre c d post, r = (pre ++ c :: d :: post)%list →
       PyStr.isspace c = true → PyStr.isspace d = false).
Proof.
  cbv zeta. rewrite normalize_chars_eq, PyStrFacts.of_to_str.
  unfold normalize_chars.
  pose proof (PyStrFacts.split_chars_words
                (PyStr.lower_chars (PyStr.strip_chars (PyStr.of_str text))))
    as Hws.
  split; [apply PyStrFacts.join_tight_front, Hws|].
  split; [apply PyStrFacts.join_tight_back, Hws|].
  split.
  - intros c. apply NormalizeFacts.join_space_only, Hws.
  - apply NormalizeFacts.join_no_pair, Hws.
Qed.

Lemma normalize_shape_witness :
  PyStr.of_str (normalize " A  b ") = ["a"; " "; "b"]%char
  ∧ PyStr.isspace " "%char = true
  ∧ PyStr.isspace "b"%char = false.
Proof.
  split; [vm_compute; reflexivity|]. split; [vm_compute; reflexivity|].
  apply (proj2 (proj2 (proj2 (normalize_shape " A  b ")))
           ["a"%char] " "%char "b"%char []);
    vm_compute; reflexivity.
Defined.


Module BlankFacts.
Import PyStr PyStrFacts.
Local Open Scope list_scope.

Lemma lstrip_blank l : blank l → lstrip_chars l = [].
Proof.
  induction 1 as [|c l Hc _ IH]; simpl; [reflexivity|].
  rewrite Hc. exact IH.
Qed.

Lemma lstrip_nil_blank l : lstrip_chars l = [] → blank l.
Proof.
  induction l as [|c l IH]; simpl; [constructor|].
  destruct (isspace c) eqn:E; [|discriminate].
  intros H. constructor; [exact E|apply IH, H].
Qed.

Lemma blank_tight_front l : blank l → tight_front l → l = [].
Proof.
  destruct l as [|c l]; [reflexivity|].
  intros Hb Ht. inversion Hb as [|? ? Hc _]; subst.
  rewrite (Ht c l eq_refl) in Hc. discriminate.
Qed.

Lemma strip_blank l : blank l → strip_chars l = [].
Proof. intros H. unfold strip_chars. rewrite (lstrip_blank l H). reflexivity. Qed.

Lemma strip_nil_blank l : strip_chars l = [] → blank l.
Proof.
  unfold strip_chars. intros H.
  apply (f_equal (@rev ascii)) in H. rewrite rev_involutive in H.
  simpl in H. apply lstrip_nil_blank, Forall_rev in H.
  rewrite rev_involutive in H.
  apply lstrip_nil_blank, blank_tight_front;
    [exact H|apply lstrip_tight_front].
Qed.

Lemma blank_lower l : blank (lower_chars l) → blank l.
Proof.
  unfold blank, lower_chars. rewrite Forall_map. intros H.
  eapply Forall_impl; [exact H|]. intros c. simpl.
  rewrite isspace_lower_char. trivial.
Qed.

(** [split_go] finds no word only in blank text, with no run begun. *)
Lemma split_go_nil l : ∀ cur, split_go cur l = [] → cur = [] ∧ blank l.
Proof.
  induction l as [|c l IH]; intros cur; simpl.
  - destruct cur; [split; [reflexivity|constructor]|discriminate].
  - destruct (isspace c) eqn:E.
    + destruct cur; [|discriminate]. intros H.
      destruct (IH [] H) as [_ Hb]. split; [reflexivity|].
      constructor; assumption.
    + intros H. destruct (IH _ H) as [[=] _].
Qed.

Lemma normalize_chars_nil_iff l : normalize_chars l = [] ↔ blank l.
Proof.
  split.
  - unfold normalize_chars. intros H.
    pose proof (split_chars_words (lower_chars (strip_chars l))) as Hws.
    destruct (split_chars (lower_chars (strip_chars l))) as [|w ws] eqn:S.
    + destruct (split_go_nil _ _ S) as [_ Hb].
      apply blank_lower in Hb. apply strip_nil_blank.
      apply blank_tight_front; [exact Hb|apply strip_tight_front].
    + inversion Hws as [|? ? [Hne _] _]; subst.
      destruct (join_words_nonempty [" "%char] w ws Hne H).
  - intros H. unfold normalize_chars. rewrite (strip_blank l H).
    reflexivity.
Qed.







End BlankFacts.


(** The key of a present field is the alias of its normalised text. *)
Lemma parse_season_key raw rp :
  season_of (parse_inputs (Some raw) rp) = SEASON_ALIASES !! normalize raw.
Proof.
  destruct (parse_inputs_independent (Some raw) rp) as (-> & _).
  unfold parse_inputs, season_of. cbn beta iota zeta.
  destruct (SEASON_ALIASES !! normalize raw); reflexivity.
Qed.

Lemma parse_plant_key rs raw :
  plant_of (parse_inputs rs (Some raw)) = PLANT_ALIASES !! normalize raw.
Proof.
  destruct (parse_inputs_independent rs (Some raw)) as (_ & -> & _).
  unfold parse_inputs, plant_of. cbn beta iota zeta.
  destruct (PLANT_ALIASES !! normalize raw); reflexivity.
Qed.




(** X5. A blank answer is not taken as an absent field: it is reported
    as unknown, with the text as typed between the quotes. *)
Theorem parse_inputs_blank (raw : string) :
  blank (PyStr.of_str raw) →
  parse_inputs (Some raw) None = (None, None, [season_error raw])
  ∧ parse_inputs None (Some raw) = (None, None, [plant_error raw]).
Proof.
  intros H. apply BlankFacts.normalize_chars_nil_iff in H.
  unfold parse_inputs. cbn beta iota zeta.
  rewrite normalize_chars_eq, H. split; reflexivity.
Qed.

Lemma parse_inputs_blank_witness :
  blank (PyStr.of_str "  ")
  ∧ parse_inputs (Some "  ") None
  = (None, None,
     ["Unknown season: '  '. Try spring/summer/autumn(winter) or 'fall'."])
  ∧ parse_inputs None (Some "  ")
    = (None, None,
       ["Unknown plant type: '  '. Try 'flower' or 'vegetable'."]).
Proof.
  assert (H : blank (PyStr.of_str "  ")) by (repeat constructor).
  split; [exact H|]. exact (parse_inputs_blank "  " H).
Defined.


(** ** More on the input resolver *)

(** Every key of an alias table is already normalised, and every value of
    an alias table is a key that stands for itself; both are decided by
    evaluation over the entries. *)
Lemma SEASON_ALIASES_keys_normal :
  map_Forall (λ k _, normalize k = k) SEASON_ALIASES.
Proof. compute_done. Qed.

Lemma PLANT_ALIASES_keys_normal :
  map_Forall (λ k _, normalize k = k) PLANT_ALIASES.
Proof. compute_done. Qed.

Lemma SEASON_ALIASES_values :
  map_Forall
    (λ _ v, (v = "spring" ∨ v = "summer" ∨ v = "autumn" ∨ v = "winter")
            ∧ SEASON_ALIASES !! normalize v = Some v)
    SEASON_ALIASES.
Proof. compute_done. Qed.

Lemma PLANT_ALIASES_values :
  map_Forall
    (λ _ v, (v = "flower" ∨ v = "vegetable")
            ∧ PLANT_ALIASES !! normalize v = Some v)
    PLANT_ALIASES.
Proof. compute_done. Qed.

Lemma parse_season_found rs rp s :
  season_of (parse_inputs rs rp) = Some s →
  ∃ raw, rs = Some raw ∧ SEASON_ALIASES !! normalize raw = Some s.
Proof.
  destruct rs as [raw|].
  - rewrite parse_season_key. eauto.
  - destruct (parse_inputs_independent None rp) as (-> & _).
    discriminate.
Qed.

Lemma parse_plant_found rs rp p :
  plant_of (parse_inputs rs rp) = Some p →
  ∃ raw, rp = Some raw ∧ PLANT_ALIASES !! normalize raw = Some p.
Proof.
  destruct rp as [raw|].
  - rewrite parse_plant_key. eauto.
  - destruct (parse_inputs_independent rs None) as (_ & -> & _).
    discriminate.
Qed.

(** X7. Every key of an alias table, given as it is written in the
    table, resolves to the value the table holds for it. *)
Theorem parse_inputs_alias_key (k v : string) :
  (SEASON_ALIASES !! k = Some v →
   ∀ rp, season_of (parse_inputs (Some k) rp) = Some v)
  ∧ (PLANT_ALIASES !! k = Some v →
     ∀ rs, plant_of (parse_inputs rs (Some k)) = Some v).
Proof.
  split; intros H other.
  - rewrite parse_season_key, (SEASON_ALIASES_keys_normal k v H). exact H.
  - rewrite parse_plant_key, (PLANT_ALIASES_keys_normal k v H). exact H.
Qed.

Lemma parse_inputs_alias_key_witness :
  SEASON_ALIASES !! "fall" = Some "autumn"
  ∧ season_of (parse_inputs (Some "fall") (Some "x")) = Some "autumn".
Proof.
  assert (H : SEASON_ALIASES !! "fall" = Some "autumn")
    by (vm_compute; reflexivity).
  split; [exact H|].
  exact (proj1 (parse_inputs_alias_key "fall" "autumn") H (Some "x")).
Defined.

(** X8. A season key returned by [parse_inputs] is one of spring,
    summer, autumn and winter, and a plant key one of flower and
    vegetable. *)
Theorem parse_inputs_keys_canonical (rs rp : option string) :
  (∀ s, season_of (parse_inputs rs rp) = Some s →
        s = "spring" ∨ s = "summer" ∨ s = "autumn" ∨ s = "winter")
  ∧ (∀ p, plant_of (parse_inputs rs rp) = Some p →
          p = "flower" ∨ p = "vegetable").
Proof.
  split.
  - intros s H. destruct (parse_season_found _ _ _ H) as (raw & _ & Hl).
    exact (proj1 (SEASON_ALIASES_values _ _ Hl)).
  - intros p H. destruct (parse_plant_found _ _ _ H) as (raw & _ & Hl).
    exact (proj1 (PLANT_ALIASES_values _ _ Hl)).
Qed.

Lemma parse_inputs_keys_canonical_witness :
  season_of (parse_inputs (Some " FALL ") (Some "Veg")) = Some "autumn"
  ∧ ("autumn" = "spring" ∨ "autumn" = "summer" ∨ "autumn" = "autumn"
     ∨ "autumn" = "winter").
Proof.
  assert (H : season_of (parse_inputs (Some " FALL ") (Some "Veg"))
              = Some "autumn") by (vm_compute; reflexivity).
  split; [exact H|].
  exact (proj1 (parse_inputs_keys_canonical (Some " FALL ") (Some "Veg"))
           "autumn" H).
Defined.

(** X9. A key returned by [parse_inputs] resolves to itself when it is
    given back as input. *)
Theorem parse_inputs_key_stable (rs rp other : option string) :
  (∀ s, season_of (parse_inputs rs rp) = Some s →
        season_of (parse_inputs (Some s) other) = Some s)
  ∧ (∀ p, plant_of (parse_inputs rs rp) = Some p →
          plant_of (parse_inputs other (Some p)) = Some p).
Proof.
  split.
  - intros s H. destruct (parse_season_found _ _ _ H) as (raw & _ & Hl).
    rewrite parse_season_key. exact (proj2 (SEASON_ALIASES_values _ _ Hl)).
  - intros p H. destruct (parse_plant_found _ _ _ H) as (raw & _ & Hl).
    rewrite parse_plant_key. exact (proj2 (PLANT_ALIASES_values _ _ Hl)).
Qed.

Lemma parse_inputs_key_stable_witness :
  season_of (parse_inputs (Some "Fall") None) = Some "autumn"
  ∧ season_of (parse_inputs (Some "autumn") (Some "veg")) = Some "autumn".
Proof.
  assert (H : season_of (parse_inputs (Some "Fall") None) = Some "autumn")
    by (vm_compute; reflexivity).
  split; [exact H|].
  exact (proj1 (parse_inputs_key_stable (Some "Fall") None (Some "veg"))
           "autumn" H).
Defined.

(** X10. [parse_inputs] returns at most two errors, and none exactly
    when every field that was given resolved to a key. *)
Theorem parse_inputs_no_errors_iff (rs rp : option string) :
  (length (errors_of (parse_inputs rs rp)) ≤ 2)%nat
  ∧ (errors_of (parse_inputs rs rp) = []
     ↔ (rs = None ∨ is_Some (season_of (parse_inputs rs rp)))
       ∧ (rp = None ∨ is_Some (plant_of (parse_inputs rs rp)))).
Proof.
  unfold parse_inputs, errors_of, season_of, plant_of.
  destruct rs as [a|], rp as [b|]; cbn beta iota zeta;
    try destruct (SEASON_ALIASES !! normalize a);
    try destruct (PLANT_ALIASES !! normalize b);
    cbn; (split; [lia|]); split;
    try discriminate; try (intros _; split; eauto);
    intros [[?|[? ?]] [?|[? ?]]]; congruence.
Qed.

(** X11. When the normalised plant text is not a key of the plant alias
    table, there is no plant key, the season key is what the season text
    gives alone, and one error, holding the plant text as typed, follows
    the errors of the season. *)
Theorem parse_inputs_unknown_plant (raw_season : option string)
    (raw_plant : string) :
  PLANT_ALIASES !! normalize raw_plant = None →
  plant_of (parse_inputs raw_season (Some raw_plant)) = None
  ∧ season_of (parse_inputs raw_season (Some raw_plant))
    = season_of (parse_inputs raw_season None)
  ∧ errors_of (parse_inputs raw_season (Some raw_plant))
    = (errors_of (parse_inputs raw_season None) ++ [plant_error raw_plant])%list
  ∧ PyStr.contains raw_plant (plant_error raw_plant).
Proof.
  intros Hp. split; [rewrite parse_plant_key; exact Hp|].
  destruct (parse_inputs_independent raw_season (Some raw_plant))
    as (Hs & _ & He).
  split; [exact Hs|]. split; [|apply contains_plant_error].
  rewrite He. f_equal.
  unfold parse_inputs, errors_of. cbn beta iota zeta. rewrite Hp.
  reflexivity.
Qed.

Lemma parse_inputs_unknown_plant_witness :
  PLANT_ALIASES !! normalize "Tree" = None
  ∧ plant_of (parse_inputs (Some "summer") (Some "Tree")) = None
  ∧ errors_of (parse_inputs (Some "summer") (Some "Tree"))
    = ["Unknown plant type: 'Tree'. Try 'flower' or 'vegetable'."].
Proof.
  assert (H : PLANT_ALIASES !! normalize "Tree" = None)
    by (vm_compute; reflexivity).
  split; [exact H|].
  destruct (parse_inputs_unknown_plant (Some "summer") "Tree" H)
    as (Hk & _ & He & _).
  split; [exact Hk|]. rewrite He. vm_compute. reflexivity.
Defined.

(** ** More on the advice renderer *)

(** The renderer over any tables, for a pair with tips and a season
    with recommendations. *)
Lemma get_advice_in_tips advice recommendations season_key plant_key
    tips recs :
  advice !! season_key ≫= (λ bucket, bucket !! plant_key) = Some tips →
  tips ≠ [] →
  recommendations !! season_key = Some recs →
  recs ≠ [] →
  get_advice_in advice recommendations season_key plant_key
  = PyStr.join LF
      (tips ++ [""; "Suggested " +:+ plant_key +:+ "s for " +:+ season_key
                      +:+ ": " +:+ PyStr.join ", " recs])%list.
Proof.
  intros Ht Hne Hr Hre. unfold get_advice_in.
  destruct (advice !! season_key) as [bucket|]; [|discriminate].
  simpl in Ht |- *. rewrite Ht, Hr. simpl.
  destruct tips; [contradiction|]. destruct recs; [contradiction|].
  reflexivity.
Qed.

(** Every pair of canonical keys has tips, and every canonical season
    has recommendations. *)
Lemma tables_cover s p :
  s = "spring" ∨ s = "summer" ∨ s = "autumn" ∨ s = "winter" →
  p = "flower" ∨ p = "vegetable" →
  ∃ tips recs,
    ADVICE !! s ≫= (λ bucket, bucket !! p) = Some tips ∧ tips ≠ []
    ∧ RECOMMENDATIONS !! s = Some recs ∧ recs ≠ []
    ∧ PyStr.split_on "010"%char (get_advice s p)
      = (tips ++ [""; "Suggested " +:+ p +:+ "s for " +:+ s +:+ ": "
                        +:+ PyStr.join ", " recs])%list.
Proof.
  intros [-> | [-> | [-> | ->]]] [-> | ->];
    eexists; eexists;
    (split; [vm_compute; reflexivity|]);
    (split; [discriminate|]);
    (split; [vm_compute; reflexivity|]);
    (split; [discriminate|]);
    vm_compute; reflexivity.
Qed.

(** X12. For the keys [parse_inputs] returns, [get_advice] never falls
    back: the pair has tips and the season has recommendations, and the
    text is the tips, an empty line and the footer, joined by line
    feeds. *)
Theorem get_advice_after_parse (rs rp : option string) (s p : string) :
  season_of (parse_inputs rs rp) = Some s →
  plant_of (parse_inputs rs rp) = Some p →
  ∃ tips recs,
    ADVICE !! s ≫= (λ bucket, bucket !! p) = Some tips ∧ tips ≠ []
    ∧ RECOMMENDATIONS !! s = Some recs ∧ recs ≠ []
    ∧ get_advice s p
      = PyStr.join LF
          (tips ++ [""; "Suggested " +:+ p +:+ "s for " +:+ s +:+ ": "
                          +:+ PyStr.join ", " recs])%list.
Proof.
  intros Hs Hp.
  destruct (parse_season_found _ _ _ Hs) as (a & _ & Ha).
  destruct (parse_plant_found _ _ _ Hp) as (b & _ & Hb).
  destruct (tables_cover s p (proj1 (SEASON_ALIASES_values _ _ Ha))
              (proj1 (PLANT_ALIASES_values _ _ Hb)))
    as (tips & recs & Ht & Hne & Hr & Hre & _).
  exists tips, recs. repeat (split; [assumption|]).
  apply get_advice_in_tips; assumption.
Qed.

Lemma get_advice_after_parse_witness :
  season_of (parse_inputs (Some " FALL ") (Some "Veg")) = Some "autumn"
  ∧ plant_of (parse_inputs (Some " FALL ") (Some "Veg")) = Some "vegetable"
  ∧ ∃ tips recs,
    ADVICE !! "autumn" ≫= (λ bucket, bucket !! "vegetable") = Some tips
    ∧ tips ≠ []
    ∧ RECOMMENDATIONS !! "autumn" = Some recs ∧ recs ≠ []
    ∧ get_advice "autumn" "vegetable"
      = PyStr.join LF
          (tips ++ [""; "Suggested " +:+ "vegetable" +:+ "s for "
                          +:+ "autumn" +:+ ": " +:+ PyStr.join ", " recs])%list.
Proof.
  assert (Hs : season_of (parse_inputs (Some " FALL ") (Some "Veg"))
               = Some "autumn") by (vm_compute; reflexivity).
  assert (Hp : plant_of (parse_inputs (Some " FALL ") (Some "Veg"))
               = Some "vegetable") by (vm_compute; reflexivity).
  split; [exact Hs|]. split; [exact Hp|].
  exact (get_advice_after_parse _ _ _ _ Hs Hp).
Defined.

(** X13. Over any tables, an empty list renders as a missing entry: a
    plant with an empty tip list, or a season with an empty bucket, gives
    what the table without that entry gives, and a season with an empty
    recommendation list gives what the table without that season gives. *)
Theorem get_advice_in_empty_is_missing
    (advice : gmap string (gmap string (list string)))
    (recommendations : gmap string (list string))
    (bucket : gmap string (list string)) (s p : string) :
  get_advice_in (<[s := <[p := []]> bucket]> advice) recommendations s p
  = get_advice_in (<[s := delete p bucket]> advice) recommendations s p
  ∧ get_advice_in (<[s := ∅]> advice) recommendations s p
    = get_advice_in (delete s advice) recommendations s p
  ∧ get_advice_in advice (<[s := []]> recommendations) s p
    = get_advice_in advice (delete s recommendations) s p.
Proof.
  unfold get_advice_in.
  rewrite !lookup_insert_eq, !lookup_delete_eq. simpl.
  rewrite lookup_insert_eq, lookup_delete_eq, lookup_empty.
  repeat split.
Qed.

(** X14. For the keys [parse_inputs] returns, splitting the text of
    [get_advice] at the line feeds gives back the tips, one empty line and
    the footer as the last line. *)
Theorem get_advice_lines (rs rp : option string) (s p : string) :
  season_of (parse_inputs rs rp) = Some s →
  plant_of (parse_inputs rs rp) = Some p →
  ∃ tips recs,
    ADVICE !! s ≫= (λ bucket, bucket !! p) = Some tips
    ∧ RECOMMENDATIONS !! s = Some recs
    ∧ PyStr.split_on "010"%char (get_advice s p)
      = (tips ++ [""; "Suggested " +:+ p +:+ "s for " +:+ s +:+ ": "
                        +:+ PyStr.join ", " recs])%list.
Proof.
  intros Hs Hp.
  destruct (parse_season_found _ _ _ Hs) as (a & _ & Ha).
  destruct (parse_plant_found _ _ _ Hp) as (b & _ & Hb).
  destruct (tables_cover s p (proj1 (SEASON_ALIASES_values _ _ Ha))
              (proj1 (PLANT_ALIASES_values _ _ Hb)))
    as (tips & recs & Ht & _ & Hr & _ & Hl).
  exists tips, recs. auto.
Qed.

Lemma get_advice_lines_witness :
  season_of (parse_inputs (Some "Summer") (Some "flowers")) = Some "summer"
  ∧ plant_of (parse_inputs (Some "Summer") (Some "flowers")) = Some "flower"
  ∧ PyStr.split_on "010"%char (get_advice "summer" "flower")
  = ["Water in the morning and mulch to retain moisture.";
     "Pinch leggy annuals to encourage new blooms.";
     "";
     "Suggested flowers for summer: Zinnia, Tomato, Basil"].
Proof.
  assert (Hs : season_of (parse_inputs (Some "Summer") (Some "flowers"))
               = Some "summer") by (vm_compute; reflexivity).
  assert (Hp : plant_of (parse_inputs (Some "Summer") (Some "flowers"))
               = Some "flower") by (vm_compute; reflexivity).
  split; [exact Hs|]. split; [exact Hp|].
  destruct (get_advice_lines _ _ _ _ Hs Hp) as (tips & recs & Ht & Hr & Hl).
  rewrite Hl. vm_compute in Ht, Hr.
  injection Ht as <-. injection Hr as <-. reflexivity.
Defined.

(** ** The interactive driver *)

Lemma str_app_assoc (s1 s2 s3 : string) :
  (s1 +:+ s2) +:+ s3 = s1 +:+ s2 +:+ s3.
Proof.
  induction s1 as [|c s1 IH]; [reflexivity|].
  change (String c ((s1 +:+ s2) +:+ s3) = String c (s1 +:+ s2 +:+ s3)).
  f_equal. exact IH.
Qed.

(** On [str] keys the renderer [main] calls is [get_advice]. *)
Lemma get_advice_keys_some s p :
  get_advice_keys (Some s) (Some p) = get_advice s p.
Proof. reflexivity. Qed.

(** With two lines to read, [main] reads both, then parses them. *)
Lemma main_reads_two a b rest out :
  main (World (a :: b :: rest) out)
  = (let '(season_key, plant_key, errors) :=
       parse_inputs (Some a) (Some b) in
     match errors with
     | _ :: _ => print (PyStr.join LF errors)
     | [] => print (LF +:+ get_advice_keys season_key plant_key)
     end) (World rest ((out +:+ SEASON_PROMPT) +:+ PLANT_PROMPT)).
Proof. reflexivity. Qed.

(** X15. With two lines on standard input that both resolve, [main]
    reads exactly these two lines, writes the two prompts, an empty line
    and the advice for the two canonical keys, and returns. *)
Theorem main_advice (a b : string) (rest : list string) (out s p : string) :
  SEASON_ALIASES !! normalize a = Some s →
  PLANT_ALIASES !! normalize b = Some p →
  main (World (a :: b :: rest) out)
  = Returned ()
      (World rest
         (out +:+ SEASON_PROMPT +:+ PLANT_PROMPT
            +:+ LF +:+ get_advice s p +:+ LF)).
Proof.
  intros Ha Hb. rewrite main_reads_two.
  unfold parse_inputs. cbn beta iota zeta. rewrite Ha, Hb.
  cbn beta iota zeta. rewrite get_advice_keys_some. unfold print.
  cbn [stdin stdout]. rewrite !str_app_assoc. reflexivity.
Qed.

Lemma main_advice_witness :
  SEASON_ALIASES !! normalize " FALL " = Some "autumn"
  ∧ PLANT_ALIASES !! normalize "Veg" = Some "vegetable"
  ∧ main (World [" FALL "; "Veg"; "more"] "")
  = Returned ()
      (World ["more"]
         (SEASON_PROMPT +:+ PLANT_PROMPT +:+ LF
            +:+ "Sow/plant cool-season crops; protect from early frosts." +:+ LF
            +:+ "Add leaf mulch to improve soil." +:+ LF
            +:+ LF
            +:+ "Suggested vegetables for autumn: Crocus (bulbs), Kale, Spinach"
            +:+ LF)).
Proof.
  assert (Hs : SEASON_ALIASES !! normalize " FALL " = Some "autumn")
    by (vm_compute; reflexivity).
  assert (Hp : PLANT_ALIASES !! normalize "Veg" = Some "vegetable")
    by (vm_compute; reflexivity).
  split; [exact Hs|]. split; [exact Hp|].
  rewrite (main_advice " FALL " "Veg" ["more"] "" "autumn" "vegetable" Hs Hp).
  vm_compute. reflexivity.
Defined.

(** X16. With two lines of which at least one does not resolve, [main]
    writes the prompts and then the errors of [parse_inputs], one per
    line, and no advice. *)
Theorem main_errors (a b : string) (rest : list string) (out : string) :
  SEASON_ALIASES !! normalize a = None
  ∨ PLANT_ALIASES !! normalize b = None →
  errors_of (parse_inputs (Some a) (Some b)) ≠ []
  ∧ main (World (a :: b :: rest) out)
    = Returned ()
        (World rest
           (out +:+ SEASON_PROMPT +:+ PLANT_PROMPT
              +:+ PyStr.join LF (errors_of (parse_inputs (Some a) (Some b)))
              +:+ LF)).
Proof.
  intros H. rewrite main_reads_two.
  unfold parse_inputs, errors_of. cbn beta iota zeta.
  destruct (SEASON_ALIASES !! normalize a) as [s|],
    (PLANT_ALIASES !! normalize b) as [p|];
    cbn beta iota zeta; cbn [app snd];
    try (destruct H; discriminate);
    (split; [discriminate|]);
    unfold print; cbn [stdin stdout]; rewrite !str_app_assoc; reflexivity.
Qed.

Lemma main_errors_witness :
  SEASON_ALIASES !! normalize "monsoon" = None
  ∧ main (World ["monsoon"; "Tree"] "")
  = Returned ()
      (World []
         (SEASON_PROMPT +:+ PLANT_PROMPT
            +:+ "Unknown season: 'monsoon'. Try spring/summer/autumn(winter) or 'fall'."
            +:+ LF
            +:+ "Unknown plant type: 'Tree'. Try 'flower' or 'vegetable'."
            +:+ LF)).
Proof.
  assert (Hs : SEASON_ALIASES !! normalize "monsoon" = None)
    by (vm_compute; reflexivity).
  split; [exact Hs|].
  destruct (main_errors "monsoon" "Tree" [] "" (or_introl Hs)) as [_ H].
  rewrite H. vm_compute. reflexivity.
Defined.

(** X17. With fewer than two lines on standard input [main] raises
    [EOFError] after the prompt it could not get an answer to; a single
    line is read and not validated, and neither errors nor advice are
    written. *)
Theorem main_eof (out : string) :
  main (World [] out) = Raised EOFError (World [] (out +:+ SEASON_PROMPT))
  ∧ ∀ a, main (World [a] out)
         = Raised EOFError
             (World [] (out +:+ SEASON_PROMPT +:+ PLANT_PROMPT)).
Proof.
  split; [reflexivity|]. intros a.
  rewrite <- str_app_assoc. reflexivity.
Qed.
